(** * gocafe-rest-api: the users handler of [main.go]

    A shallow embedding of the request dispatcher [userHandler.ServeHTTP], of
    its three handlers [List], [Get] and [Create], of the three error helpers
    and of the in-memory store they share, followed by the properties the
    specification states about them. *)

From Stdlib Require Import String Ascii ZArith List Bool Lia.
From stdpp Require Import base option list strings gmap.

Local Open Scope string_scope.
Local Open Scope Z_scope.
#[local] Arguments String.append !s1 s2 : simpl nomatch.

(** ** Strings

    Go strings are byte sequences; [string] (a list of [ascii], one per byte)
    models them.  The quotation mark is written [dq]. *)

Definition dq : string := String (ascii_of_nat 34) EmptyString.

Fixpoint string_drop (n : nat) (s : string) : string :=
  match n, s with
  | O, _ => s
  | S n', String _ s' => string_drop n' s'
  | S _, EmptyString => EmptyString
  end.

Fixpoint slashes (n : nat) : string :=
  match n with
  | O => EmptyString
  | S n' => String "/" (slashes n')
  end.

(** [\d] of RE2 syntax: the ASCII digits [0-9] only. *)
Definition is_digit (c : ascii) : bool :=
  ((48 <=? N_of_ascii c) && (N_of_ascii c <=? 57))%N.

Fixpoint all_digits (s : string) : bool :=
  match s with
  | EmptyString => true
  | String c s' => is_digit c && all_digits s'
  end.

(** A key the Get route can capture: one or more decimal digits. *)
Definition digit_key (s : string) : bool :=
  match s with
  | EmptyString => false
  | String _ _ => all_digits s
  end.

(** ** Regular expressions (package [regexp])

    The operators of [regexp/syntax] that the three patterns of [main.go]
    use.  All three patterns are of the form [^body$]; a [regexp] below is
    the body, and [MatchString] decides whether the whole input is in its
    language, which is what [^] and [$] (without the [m] flag: beginning and
    end of the text) ask for. *)

Inductive regexp : Type :=
  | NoMatch
  | EmptyMatch
  | Literal (s : string)
  | DigitClass
  | Star (r : regexp)
  | Plus (r : regexp)
  | Concat (r1 r2 : regexp)
  | Alternate (r1 r2 : regexp)
  | Capture (r : regexp).

Fixpoint nullable (r : regexp) : bool :=
  match r with
  | NoMatch => false
  | EmptyMatch => true
  | Literal EmptyString => true
  | Literal (String _ _) => false
  | DigitClass => false
  | Star _ => true
  | Plus r1 => nullable r1
  | Concat r1 r2 => nullable r1 && nullable r2
  | Alternate r1 r2 => nullable r1 || nullable r2
  | Capture r1 => nullable r1
  end.

(** Brzozowski derivative of [r] by the byte [c]. *)
Fixpoint derive (c : ascii) (r : regexp) : regexp :=
  match r with
  | NoMatch => NoMatch
  | EmptyMatch => NoMatch
  | Literal EmptyString => NoMatch
  | Literal (String a s) => if Ascii.eqb a c then Literal s else NoMatch
  | DigitClass => if is_digit c then EmptyMatch else NoMatch
  | Star r1 => Concat (derive c r1) (Star r1)
  | Plus r1 => Concat (derive c r1) (Star r1)
  | Concat r1 r2 =>
      if nullable r1
      then Alternate (Concat (derive c r1) r2) (derive c r2)
      else Concat (derive c r1) r2
  | Alternate r1 r2 => Alternate (derive c r1) (derive c r2)
  | Capture r1 => derive c r1
  end.

Fixpoint MatchString (r : regexp) (s : string) : bool :=
  match s with
  | EmptyString => nullable r
  | String c s' => MatchString (derive c r) s'
  end.

(** The language of a pattern, as a relation: the reference the matcher is
    checked against. *)
Inductive lang : regexp -> string -> Prop :=
  | lang_empty : lang EmptyMatch EmptyString
  | lang_literal s : lang (Literal s) s
  | lang_digit c : is_digit c = true -> lang DigitClass (String c EmptyString)
  | lang_star_nil r : lang (Star r) EmptyString
  | lang_star_cons r s1 s2 :
      lang r s1 -> lang (Star r) s2 -> lang (Star r) (s1 ++ s2)
  | lang_plus r s1 s2 :
      lang r s1 -> lang (Star r) s2 -> lang (Plus r) (s1 ++ s2)
  | lang_concat r1 r2 s1 s2 :
      lang r1 s1 -> lang r2 s2 -> lang (Concat r1 r2) (s1 ++ s2)
  | lang_alt_l r1 r2 s : lang r1 s -> lang (Alternate r1 r2) s
  | lang_alt_r r1 r2 s : lang r2 s -> lang (Alternate r1 r2) s
  | lang_capture r s : lang r s -> lang (Capture r) s.

(** [listUsersRe = regexp.MustCompile(`^\/users[\/]*$`)] *)
Definition listUsersRe : regexp :=
  Concat (Literal "/users") (Star (Literal "/")).

(** [getUserRe = regexp.MustCompile(`^\/users\/(\d+)$`)] *)
Definition getUserRe : regexp :=
  Concat (Literal "/users/") (Capture (Plus DigitClass)).

(** [createUserRe = regexp.MustCompile(`^\/users[\/]*$`)] *)
Definition createUserRe : regexp :=
  Concat (Literal "/users") (Star (Literal "/")).

(** [getUserRe.FindStringSubmatch]: [nil] when the text does not match,
    otherwise the whole match followed by the text of the one capture group.
    In [getUserRe] the group follows the seven bytes of the literal [/users/]
    and runs to the end of the text. *)
Definition FindStringSubmatch_getUserRe (s : string) : list string :=
  if MatchString getUserRe s then [s; string_drop 7 s] else [].

(** ** Data model *)

(** [type user struct { ID string `json:"id"`; Name string `json:"name"` }] *)
Record user : Type := mk_user { ID : string; Name : string }.

(** The parts of [*http.Request] the handlers read. *)
Record Request : Type := mk_Request {
  Method : string;
  URL_Path : string;
  Body : string
}.

Definition MethodGet : string := "GET".
Definition MethodPost : string := "POST".

Definition StatusOK : Z := 200.
Definition StatusBadRequest : Z := 400.
Definition StatusNotFound : Z := 404.
Definition StatusInternalServerError : Z := 500.

(** What a handler does to the outside: calls on the [http.ResponseWriter],
    calls on the [*sync.RWMutex] embedded in [datastore], and accesses to the
    map [datastore.m]. *)
Inductive event : Type :=
  | EvHeaderSet (k v : string)
  | EvWriteHeader (code : Z)
  | EvWrite (b : string)
  | EvRLock
  | EvRUnlock
  | EvLock
  | EvUnlock
  | EvMapLen
  | EvMapRange
  | EvMapIndex (k : string)
  | EvMapAssign (k : string).

(** The state a handler runs in: the map of the store [h.store.m] and the
    events so far, oldest first. *)
Record world : Type := mk_world {
  store_m : gmap string user;
  trace : list event
}.

(** A Go call either returns or panics. *)
Inductive outcome (A : Type) : Type :=
  | Return (a : A)
  | Panic (msg : string).
Arguments Return {A} a.
Arguments Panic {A} msg.

Definition Handler (A : Type) : Type := world -> outcome A * world.

Definition ret {A} (a : A) : Handler A := fun w => (Return a, w).

Definition bind {A B} (h : Handler A) (k : A -> Handler B) : Handler B :=
  fun w =>
    match h w with
    | (Return a, w') => k a w'
    | (Panic msg, w') => (Panic msg, w')
    end.

Declare Scope handler_scope.
Delimit Scope handler_scope with handler.
Notation "x <- c1 ;; c2" := (bind c1 (fun x => c2))
  (at level 100, c1 at next level, right associativity) : handler_scope.
Notation "c1 ;; c2" := (bind c1 (fun _ => c2))
  (at level 100, right associativity) : handler_scope.

Definition emit (e : event) : Handler unit :=
  fun w => (Return tt, mk_world (store_m w) (trace w ++ [e])).

Definition panic {A} (msg : string) : Handler A := fun w => (Panic msg, w).

(** [w.Header().Set], [w.WriteHeader], [w.Write] *)
Definition Header_Set (k v : string) : Handler unit := emit (EvHeaderSet k v).
Definition WriteHeader (code : Z) : Handler unit := emit (EvWriteHeader code).
Definition Write (b : string) : Handler unit := emit (EvWrite b).

(** [h.store.RLock()], [RUnlock()], [Lock()], [Unlock()] *)
Definition RLock : Handler unit := emit EvRLock.
Definition RUnlock : Handler unit := emit EvRUnlock.
Definition Lock : Handler unit := emit EvLock.
Definition Unlock : Handler unit := emit EvUnlock.

(** [len(h.store.m)] *)
Definition map_len : Handler nat :=
  fun w => (Return (size (store_m w)), mk_world (store_m w) (trace w ++ [EvMapLen])).

(** [v, ok := h.store.m[k]] *)
Definition map_index (k : string) : Handler (option user) :=
  fun w => (Return (store_m w !! k), mk_world (store_m w) (trace w ++ [EvMapIndex k])).

(** [h.store.m[k] = u] *)
Definition map_assign (k : string) (u : user) : Handler unit :=
  fun w => (Return tt, mk_world (<[k:=u]> (store_m w)) (trace w ++ [EvMapAssign k])).

(** [matches[i]]: indexing a slice out of range is a run-time panic. *)
Definition slice_index (l : list string) (i : nat) : Handler string :=
  match l !! i with
  | Some x => ret x
  | None => panic "index out of range"
  end.

(** Start a handler on a store with nothing written yet. *)
Definition run {A} (h : Handler A) (m : gmap string user) : outcome A * world :=
  h (mk_world m []).

(** ** Libraries the handlers call

    [encoding/json] is not part of the repository; the handlers are
    parametric in it.  [None] stands for a non-nil [error]. *)
Class EncodingJSON : Type := {
  (** [json.NewDecoder(r.Body).Decode(&u)] on [u := user{}] *)
  json_Decode : string -> option user;
  (** [json.Marshal(u)] for a [user] *)
  json_Marshal_user : user -> option string;
  (** [json.Marshal(users)] for a [[]user] *)
  json_Marshal_users : list user -> option string
}.

(** [for _, u := range m]: Go leaves the order of iteration over a map
    unspecified; every value is visited once. *)
Class MapIteration : Type := {
  range_values : gmap string user -> list user;
  range_values_perm : forall m, range_values m ≡ₚ (map_to_list m).*2
}.

(** The case the [switch] of [ServeHTTP] selects. *)
Inductive route : Type := RouteList | RouteGet | RouteCreate | RouteNotFound.

(** ** Error helpers *)

Definition error_body (msg : string) : string :=
  "{" ++ dq ++ "error" ++ dq ++ " : " ++ dq ++ msg ++ dq ++ "}".

(** [`{"error" : "bad request"}`] *)
Definition badRequest_body : string := Eval cbv in error_body "bad request".
(** [`{"error" : "not found"}`] *)
Definition notFound_body : string := Eval cbv in error_body "not found".
(** [`{"error" : "interval server error"}`] *)
Definition internalServerError_body : string :=
  Eval cbv in error_body "interval server error".

Local Open Scope handler_scope.

Definition badRequest (r : Request) : Handler unit :=
  WriteHeader StatusBadRequest ;;
  Write badRequest_body.

Definition notFound (r : Request) : Handler unit :=
  WriteHeader StatusNotFound ;;
  Write notFound_body.

Definition internalServerError (r : Request) : Handler unit :=
  WriteHeader StatusInternalServerError ;;
  Write internalServerError_body.

(** ** The handlers of [userHandler] *)

Module userHandler.
Section Methods.
Context {json : EncodingJSON} {iteration : MapIteration}.

(** [for _, u := range h.store.m { users = append(users, u) }] *)
Definition map_range : Handler (list user) :=
  fun w => (Return (range_values (store_m w)),
            mk_world (store_m w) (trace w ++ [EvMapRange])).

Definition List (r : Request) : Handler unit :=
  _ <- map_len ;;
  RLock ;;
  users <- map_range ;;
  RUnlock ;;
  match json_Marshal_users users with
  | None => internalServerError r
  | Some jsonBytes =>
      WriteHeader StatusOK ;;
      Write jsonBytes
  end.

Definition Get (r : Request) : Handler unit :=
  let matches := FindStringSubmatch_getUserRe (URL_Path r) in
  (if (length matches <? 2)%nat then notFound r else ret tt) ;;
  RLock ;;
  key <- slice_index matches 1 ;;
  found <- map_index key ;;
  RUnlock ;;
  match found with
  | None => notFound r
  | Some u =>
      match json_Marshal_user u with
      | None => internalServerError r
      | Some jsonBytes =>
          WriteHeader StatusOK ;;
          Write jsonBytes
      end
  end.

Definition Create (r : Request) : Handler unit :=
  match json_Decode (Body r) with
  | None => badRequest r
  | Some u =>
      Lock ;;
      map_assign (ID u) u ;;
      Unlock ;;
      match json_Marshal_user u with
      | None => internalServerError r
      | Some jsonBytes =>
          WriteHeader StatusOK ;;
          Write jsonBytes
      end
  end.

(** The [switch] of [ServeHTTP]: the first case whose condition holds. *)
Definition select (r : Request) : route :=
  if String.eqb (Method r) MethodGet && MatchString listUsersRe (URL_Path r)
  then RouteList
  else if String.eqb (Method r) MethodGet && MatchString getUserRe (URL_Path r)
  then RouteGet
  else if String.eqb (Method r) MethodPost && MatchString createUserRe (URL_Path r)
  then RouteCreate
  else RouteNotFound.

Definition ServeHTTP (r : Request) : Handler unit :=
  Header_Set "content-type" "application/json" ;;
  match select r with
  | RouteList => List r
  | RouteGet => Get r
  | RouteCreate => Create r
  | RouteNotFound => notFound r
  end.

(** Serving one request on a store, and what is left of it afterwards: the
    events of the run and the map. *)
Definition response (r : Request) (m : gmap string user) : list event :=
  trace (snd (run (ServeHTTP r) m)).

Definition serve (r : Request) (m : gmap string user) : gmap string user :=
  store_m (snd (run (ServeHTTP r) m)).

(** Serving requests one after the other. *)
Definition serve_all (rs : list Request) (m : gmap string user)
  : gmap string user :=
  fold_left (fun m' r => serve r m') rs m.

(** Whether serving [r] stores a record under key [k]. *)
Definition creates_key (k : string) (r : Request) : bool :=
  match select r, json_Decode (Body r) with
  | RouteCreate, Some u => String.eqb (ID u) k
  | _, _ => false
  end.

End Methods.
End userHandler.

(** ** Reading a trace *)

(** The status line of the response: the first [WriteHeader] call decides
    it, [net/http] ignores later ones. *)
Fixpoint response_status (tr : list event) : option Z :=
  match tr with
  | [] => None
  | EvWriteHeader code :: _ => Some code
  | _ :: tr' => response_status tr'
  end.

(** The response body: everything passed to [Write], in order. *)
Fixpoint response_body (tr : list event) : string :=
  match tr with
  | [] => EmptyString
  | EvWrite b :: tr' => b ++ response_body tr'
  | _ :: tr' => response_body tr'
  end.

Definition is_write (e : event) : bool :=
  match e with
  | EvWriteHeader _ | EvWrite _ => true
  | _ => false
  end.

(** The calls that write the response, in order. *)
Definition writes (tr : list event) : list event := List.filter is_write tr.

Definition is_store_event (e : event) : bool :=
  match e with
  | EvRLock | EvRUnlock | EvLock | EvUnlock
  | EvMapLen | EvMapRange | EvMapIndex _ | EvMapAssign _ => true
  | _ => false
  end.

(** How the running handler holds the lock of the store. *)
Inductive lock_mode : Type := Unheld | Shared | Exclusive.

(** Every read of the map happens with the lock held (shared or exclusive)
    and every write with the lock held exclusively. *)
Fixpoint lock_discipline_from (mode : lock_mode) (tr : list event) : bool :=
  match tr with
  | [] => true
  | EvRLock :: tr' => lock_discipline_from Shared tr'
  | EvLock :: tr' => lock_discipline_from Exclusive tr'
  | EvRUnlock :: tr' | EvUnlock :: tr' => lock_discipline_from Unheld tr'
  | EvMapLen :: tr' | EvMapRange :: tr' | EvMapIndex _ :: tr' =>
      match mode with
      | Unheld => false
      | _ => lock_discipline_from mode tr'
      end
  | EvMapAssign _ :: tr' =>
      match mode with
      | Exclusive => lock_discipline_from mode tr'
      | _ => false
      end
  | _ :: tr' => lock_discipline_from mode tr'
  end.

Definition lock_discipline (tr : list event) : bool :=
  lock_discipline_from Unheld tr.

(** ** Reading an error body

    A reader for JSON objects whose members are all strings without escapes,
    enough for the three error bodies and for request bodies in examples. *)

Definition is_space (c : ascii) : bool :=
  match nat_of_ascii c with
  | 32%nat | 9%nat | 10%nat | 13%nat => true
  | _ => false
  end.

Fixpoint skip_space (s : string) : string :=
  match s with
  | String c s' => if is_space c then skip_space s' else s
  | EmptyString => s
  end.

Definition expect (c : ascii) (s : string) : option string :=
  match s with
  | String a s' => if Ascii.eqb a c then Some s' else None
  | EmptyString => None
  end.

(** The characters up to the closing quotation mark, and what follows it. *)
Fixpoint read_until_quote (s : string) : option (string * string) :=
  match s with
  | EmptyString => None
  | String c s' =>
      if Ascii.eqb c (ascii_of_nat 34) then Some (EmptyString, s')
      else if Ascii.eqb c (ascii_of_nat 92) then None
      else match read_until_quote s' with
           | Some (v, rest) => Some (String c v, rest)
           | None => None
           end
  end.

Definition read_string (s : string) : option (string * string) :=
  match expect (ascii_of_nat 34) s with
  | Some s' => read_until_quote s'
  | None => None
  end.

(** One member [key : value]. *)
Definition read_member (s : string) : option ((string * string) * string) :=
  match read_string (skip_space s) with
  | None => None
  | Some (k, s1) =>
      match expect ":" (skip_space s1) with
      | None => None
      | Some s2 =>
          match read_string (skip_space s2) with
          | None => None
          | Some (v, s3) => Some ((k, v), skip_space s3)
          end
      end
  end.

Fixpoint read_members (fuel : nat) (s : string)
  : option (list (string * string) * string) :=
  match fuel with
  | O => None
  | S fuel' =>
      match read_member s with
      | None => None
      | Some (kv, String c rest) =>
          if Ascii.eqb c "}" then Some ([kv], rest)
          else if Ascii.eqb c "," then
            match read_members fuel' rest with
            | Some (kvs, rest') => Some (kv :: kvs, rest')
            | None => None
            end
          else None
      | Some (_, EmptyString) => None
      end
  end.

Definition read_object (s : string) : option (list (string * string) * string) :=
  match expect "{" (skip_space s) with
  | None => None
  | Some s1 =>
      match expect "}" (skip_space s1) with
      | Some rest => Some ([], rest)
      | None => read_members (String.length s) s1
      end
  end.

(** The value of the [error] member of a body that is a JSON object with
    that single member. *)
Definition error_field (body : string) : option string :=
  match read_object body with
  | Some ([(k, v)], rest) =>
      if String.eqb k "error" && String.eqb (skip_space rest) EmptyString
      then Some v else None
  | _ => None
  end.

(** ** Fixtures

    The seed of [main], and instances of the two library interfaces to run
    the handlers on concrete requests: a codec for objects of plain strings
    and iteration in the order of [map_to_list]. *)

Definition main_store : gmap string user :=
  list_to_map
    [ ("1", mk_user "MCI001" "Kevin De Bruyne");
      ("2", mk_user "MCI002" "Bernardo Silva");
      ("3", mk_user "MCI003" "Erling Braut Haaland");
      ("4", mk_user "MCI004" "Ederson Moraes");
      ("5", mk_user "MCI005" "Jack Grealish");
      ("6", mk_user "MCI006" "Kyle Walker");
      ("7", mk_user "MCI007" "Joao Cancelo");
      ("8", mk_user "MCI008" "Ruben Dias");
      ("9", mk_user "MCI009" "Aymeric Laporte");
      ("10", mk_user "MCI010" "John Stones");
      ("11", mk_user "MCI011" "Manuel Akanji");
      ("12", mk_user "MCI012" "Ilkay Gundogan");
      ("13", mk_user "MCI013" "Phil Foden");
      ("14", mk_user "MCI014" "Riyad Mahrez") ].

Fixpoint field (k : string) (kvs : list (string * string)) : string :=
  match kvs with
  | [] => EmptyString
  | (k', v) :: kvs' => if String.eqb k k' then v else field k kvs'
  end.

(** Members other than [id] and [name] are skipped and a missing member
    leaves its field empty; the JSON value [null] leaves [user{}] as it is.
    Neither is an error for [Decode]. *)
Definition plain_Decode (body : string) : option user :=
  match read_object body with
  | Some (kvs, _) => Some (mk_user (field "id" kvs) (field "name" kvs))
  | None =>
      if String.eqb (skip_space body) "null"
      then Some (mk_user EmptyString EmptyString)
      else None
  end.

Definition plain_Marshal_user (u : user) : string :=
  "{" ++ dq ++ "id" ++ dq ++ ":" ++ dq ++ ID u ++ dq ++ ","
      ++ dq ++ "name" ++ dq ++ ":" ++ dq ++ Name u ++ dq ++ "}".

Fixpoint plain_Marshal_elems (l : list user) : string :=
  match l with
  | [] => EmptyString
  | [u] => plain_Marshal_user u
  | u :: l' => plain_Marshal_user u ++ "," ++ plain_Marshal_elems l'
  end.

Definition plain_json : EncodingJSON := {|
  json_Decode := plain_Decode;
  json_Marshal_user := fun u => Some (plain_Marshal_user u);
  json_Marshal_users := fun l => Some ("[" ++ plain_Marshal_elems l ++ "]")
|}.

Definition listed_order : MapIteration := {|
  range_values := fun m => (map_to_list m).*2;
  range_values_perm := fun m => reflexivity _
|}.

(** A request body [{"id":"<id>","name":"<name>"}]. *)
Definition user_body (id name : string) : string :=
  plain_Marshal_user (mk_user id name).

(** ** Reading a run: lock usage and request sequences *)

(** How a handler uses the lock along its trace: the lock is taken only when
    the handler does not hold it, released only in the mode it is held in,
    and nothing is written to the response while it is held.  [Some mode] is
    how the lock is held at the end of the trace, [None] a trace that breaks
    one of these rules. *)
Fixpoint lock_usage_from (mode : lock_mode) (tr : list event)
  : option lock_mode :=
  match tr with
  | [] => Some mode
  | EvRLock :: tr' =>
      match mode with Unheld => lock_usage_from Shared tr' | _ => None end
  | EvLock :: tr' =>
      match mode with Unheld => lock_usage_from Exclusive tr' | _ => None end
  | EvRUnlock :: tr' =>
      match mode with Shared => lock_usage_from Unheld tr' | _ => None end
  | EvUnlock :: tr' =>
      match mode with Exclusive => lock_usage_from Unheld tr' | _ => None end
  | EvWriteHeader _ :: tr' | EvWrite _ :: tr' =>
      match mode with Unheld => lock_usage_from mode tr' | _ => None end
  | _ :: tr' => lock_usage_from mode tr'
  end.

Definition lock_usage (tr : list event) : option lock_mode :=
  lock_usage_from Unheld tr.

Section Sequences.
Context {json : EncodingJSON} {iteration : MapIteration}.

(** The record a request puts in the store: the one decoded from the body
    of a request that is routed to Create. *)
Definition stored_by (r : Request) : option user :=
  match userHandler.select r, json_Decode (Body r) with
  | RouteCreate, Some u => Some u
  | _, _ => None
  end.

(** The record that the last request of [rs] storing under key [k] stores. *)
Fixpoint last_created (k : string) (rs : list Request) : option user :=
  match rs with
  | [] => None
  | r :: rs' =>
      match last_created k rs' with
      | Some u => Some u
      | None =>
          match stored_by r with
          | Some u => if String.eqb (ID u) k then Some u else None
          | None => None
          end
      end
  end.

(** The three guards of the [switch] of [ServeHTTP], in order. *)
Definition guard_list (r : Request) : bool :=
  String.eqb (Method r) MethodGet && MatchString listUsersRe (URL_Path r).
Definition guard_get (r : Request) : bool :=
  String.eqb (Method r) MethodGet && MatchString getUserRe (URL_Path r).
Definition guard_create (r : Request) : bool :=
  String.eqb (Method r) MethodPost && MatchString createUserRe (URL_Path r).

End Sequences.

(** * Properties *)

(** ** Strings *)

Lemma append_nil_r (s : string) : s ++ EmptyString = s.
Proof. induction s as [|c s IH]; simpl; [reflexivity | now rewrite IH]. Qed.

Lemma append_eq_nil (s1 s2 : string) :
  s1 ++ s2 = EmptyString -> s1 = EmptyString /\ s2 = EmptyString.
Proof. destruct s1; simpl; [auto | discriminate]. Qed.

Lemma append_eq_cons (s1 s2 : string) (c : ascii) (s : string) :
  s1 ++ s2 = String c s ->
  (s1 = EmptyString /\ s2 = String c s) \/
  (exists s1', s1 = String c s1' /\ s = s1' ++ s2).
Proof.
  destruct s1 as [|a s1]; simpl; intros E.
  - left; auto.
  - right. injection E as -> <-. eauto.
Qed.

Lemma append_inj_l (p s t : string) : p ++ s = p ++ t -> s = t.
Proof. induction p; simpl; intros E; [assumption | injection E; auto]. Qed.

(** ** The matcher decides the language *)

Lemma nullable_lang (r : regexp) : nullable r = true <-> lang r EmptyString.
Proof.
  split.
  - induction r as [| |s| |r IH|r IH|r1 IH1 r2 IH2|r1 IH1 r2 IH2|r IH];
      simpl; intros E; try discriminate.
    + constructor.
    + destruct s; [constructor | discriminate].
    + constructor.
    + apply (lang_plus r EmptyString EmptyString); [auto | constructor].
    + apply andb_true_iff in E as [E1 E2].
      apply (lang_concat r1 r2 EmptyString EmptyString); auto.
    + apply orb_true_iff in E as [E|E];
        [apply lang_alt_l | apply lang_alt_r]; auto.
    + constructor; auto.
  - intros L. remember EmptyString as e eqn:He.
    induction L; simpl; subst; try reflexivity; try discriminate.
    + apply append_eq_nil in He as [-> ->]. auto.
    + apply append_eq_nil in He as [-> ->].
      apply andb_true_iff; auto.
    + apply orb_true_iff; auto.
    + apply orb_true_iff; auto.
    + auto.
Qed.

Lemma lang_star_cons_inv (r : regexp) (c : ascii) (s : string) :
  lang (Star r) (String c s) ->
  exists s1 s2, s = s1 ++ s2 /\ lang r (String c s1) /\ lang (Star r) s2.
Proof.
  intros L. remember (Star r) as r' eqn:Hr. remember (String c s) as t eqn:Ht.
  revert Hr Ht.
  induction L as [| | | |r0 s1 s2 L1 _ L2 IH2| | | | |]; intros Hr Ht;
    try discriminate.
  injection Hr as ->.
  apply append_eq_cons in Ht as [[-> ->]|(s1' & -> & ->)].
  - apply IH2; reflexivity.
  - eauto.
Qed.

Lemma derive_lang (r : regexp) :
  forall c s, lang (derive c r) s <-> lang r (String c s).
Proof.
  induction r as [| |p| |r IH|r IH|r1 IH1 r2 IH2|r1 IH1 r2 IH2|r IH];
    intros c s; simpl.
  - split; intros L; inversion L.
  - split; intros L; inversion L.
  - destruct p as [|a p]; [split; intros L; inversion L |].
    destruct (Ascii.eqb_spec a c) as [->|Hne].
    + split; intros L; inversion L; subst; constructor.
    + split; intros L; inversion L; subst; congruence.
  - destruct (is_digit c) eqn:Hd.
    + split; intros L; inversion L; subst; now constructor.
    + split; intros L; inversion L; subst; congruence.
  - split; intros L.
    + inversion L as [| | | | | |r1 r2 s1 s2 L1 L2| | |]; subst.
      apply IH in L1. apply (lang_star_cons r (String c s1) s2); assumption.
    + apply lang_star_cons_inv in L as (s1 & s2 & -> & L1 & L2).
      constructor; [apply IH|]; assumption.
  - split; intros L.
    + inversion L as [| | | | | |r1 r2 s1 s2 L1 L2| | |]; subst.
      apply IH in L1. apply (lang_plus r (String c s1) s2); assumption.
    + inversion L as [| | | | |r0 s1 s2 L1 L2 Er Es| | | |]; subst.
      apply append_eq_cons in Es as [[-> ->]|(s1' & -> & ->)].
      * apply lang_star_cons_inv in L2 as (t1 & t2 & -> & M1 & M2).
        constructor; [apply IH|]; assumption.
      * constructor; [apply IH|]; assumption.
  - assert (Hcat : forall t, lang (Concat (derive c r1) r2) t ->
                             lang (Concat r1 r2) (String c t)).
    { intros t L.
      inversion L as [| | | | | |q1 q2 s1 s2 L1 L2| | |]; subst.
      apply IH1 in L1. apply (lang_concat r1 r2 (String c s1) s2); assumption. }
    assert (Hinv : lang (Concat r1 r2) (String c s) ->
                   lang (Concat (derive c r1) r2) s \/
                   (nullable r1 = true /\ lang (derive c r2) s)).
    { intros L.
      inversion L as [| | | | | |q1 q2 s1 s2 L1 L2 Er Es| | |]; subst.
      apply append_eq_cons in Es as [[-> ->]|(s1' & -> & ->)].
      - right. split; [now apply nullable_lang | now apply IH2].
      - left. constructor; [apply IH1|]; assumption. }
    destruct (nullable r1) eqn:Hn.
    + split; intros L.
      * inversion L; subst; [now apply Hcat |].
        apply (lang_concat r1 r2 EmptyString (String c s));
          [now apply nullable_lang | now apply IH2].
      * destruct (Hinv L) as [L'|[_ L']];
          [now apply lang_alt_l | now apply lang_alt_r].
    + split; intros L; [now apply Hcat |].
      destruct (Hinv L) as [L'|[E _]]; [assumption | discriminate].
  - split; intros L; inversion L; subst;
      solve [apply lang_alt_l; now apply IH1 | apply lang_alt_r; now apply IH2].
  - split; intros L.
    + constructor. now apply IH.
    + inversion L; subst. now apply IH.
Qed.

Lemma MatchString_lang (s : string) :
  forall r, MatchString r s = true <-> lang r s.
Proof.
  induction s as [|c s IH]; intros r; simpl.
  - apply nullable_lang.
  - rewrite IH. apply derive_lang.
Qed.

(** ** The languages of the three patterns *)

Lemma lang_literal_concat (p : string) (r : regexp) (s : string) :
  lang (Concat (Literal p) r) s <-> exists t, s = p ++ t /\ lang r t.
Proof.
  split.
  - intros L. inversion L as [| | | | | |r1 r2 s1 s2 L1 L2| | |]; subst.
    inversion L1; subst. eauto.
  - intros (t & -> & L). constructor; [constructor | assumption].
Qed.

Lemma lang_star_slash (s : string) :
  lang (Star (Literal "/")) s <-> exists n, s = slashes n.
Proof.
  split.
  - intros L. remember (Star (Literal "/")) as r eqn:Hr. revert Hr.
    induction L as [| | | |r0 s1 s2 L1 _ L2 IH2| | | | |]; intros Hr;
      try discriminate.
    + exists O. reflexivity.
    + injection Hr as ->. destruct (IH2 eq_refl) as [n ->].
      inversion L1; subst. exists (S n). reflexivity.
  - intros [n ->]. induction n as [|n IH]; simpl.
    + constructor.
    + apply (lang_star_cons (Literal "/") "/" (slashes n)); [constructor | exact IH].
Qed.

Lemma lang_star_digit (s : string) :
  lang (Star DigitClass) s <-> all_digits s = true.
Proof.
  split.
  - intros L. remember (Star DigitClass) as r eqn:Hr. revert Hr.
    induction L as [| | | |r0 s1 s2 L1 _ L2 IH2| | | | |]; intros Hr;
      try discriminate.
    + reflexivity.
    + injection Hr as ->. inversion L1 as [| |c Hc| | | | | | |]; subst.
      simpl. rewrite Hc. simpl. auto.
  - induction s as [|c s IH]; simpl; intros E.
    + constructor.
    + apply andb_true_iff in E as [Hc Hs].
      apply (lang_star_cons DigitClass (String c EmptyString) s);
        [now constructor | auto].
Qed.

Lemma lang_plus_digit (s : string) :
  lang (Capture (Plus DigitClass)) s <-> digit_key s = true.
Proof.
  split.
  - intros L. inversion L as [| | | | | | | | |r0 s0 L0]; subst.
    inversion L0 as [| | | | |r1 s1 s2 L1 L2| | | |]; subst.
    inversion L1 as [| |c Hc| | | | | | |]; subst. simpl.
    rewrite Hc. simpl. now apply lang_star_digit.
  - destruct s as [|c s]; simpl; [discriminate |]. intros E.
    apply andb_true_iff in E as [Hc Hs]. constructor.
    apply (lang_plus DigitClass (String c EmptyString) s);
      [now constructor | now apply lang_star_digit].
Qed.

(** [^\/users[\/]*$] matches [/users] followed by any number of slashes. *)
Lemma listUsersRe_matches (p : string) :
  MatchString listUsersRe p = true <-> exists n, p = "/users" ++ slashes n.
Proof.
  rewrite MatchString_lang. unfold listUsersRe. rewrite lang_literal_concat.
  split.
  - intros (t & -> & L). apply lang_star_slash in L as [n ->]. eauto.
  - intros [n ->]. eexists. split; [reflexivity |]. apply lang_star_slash. eauto.
Qed.

(** [^\/users\/(\d+)$] matches [/users/] followed by one or more digits. *)
Lemma getUserRe_matches (p : string) :
  MatchString getUserRe p = true <->
  exists d, digit_key d = true /\ p = "/users/" ++ d.
Proof.
  rewrite MatchString_lang. unfold getUserRe. rewrite lang_literal_concat.
  split.
  - intros (t & -> & L). apply lang_plus_digit in L. eauto.
  - intros (d & Hd & ->). eexists. split; [reflexivity |].
    now apply lang_plus_digit.
Qed.

Lemma slash_not_digit_key (n : nat) : digit_key (slashes n) = false.
Proof. destruct n; reflexivity. Qed.

(** No path is matched by both patterns. *)
Lemma getUserRe_not_listUsersRe (p : string) :
  MatchString getUserRe p = true -> MatchString listUsersRe p = false.
Proof.
  intros Hg. apply getUserRe_matches in Hg as (d & Hd & ->).
  apply not_true_is_false. intros Hl.
  apply listUsersRe_matches in Hl as [n E].
  destruct n as [|n]; simpl in E; [destruct d; discriminate |].
  injection E as E. rewrite E, slash_not_digit_key in Hd. discriminate.
Qed.

Lemma FindStringSubmatch_key (d : string) :
  digit_key d = true ->
  FindStringSubmatch_getUserRe ("/users/" ++ d) = ["/users/" ++ d; d].
Proof.
  intros Hd. unfold FindStringSubmatch_getUserRe.
  replace (MatchString getUserRe ("/users/" ++ d)) with true; [reflexivity |].
  symmetry. apply getUserRe_matches. eauto.
Qed.

Lemma FindStringSubmatch_length (p : string) :
  length (FindStringSubmatch_getUserRe p) =
  if MatchString getUserRe p then 2%nat else 0%nat.
Proof.
  unfold FindStringSubmatch_getUserRe. now destruct (MatchString getUserRe p).
Qed.

(** ** Routing *)

Import userHandler.

Section Routing.
Context {json : EncodingJSON} {iteration : MapIteration}.

Lemma select_list (r : Request) :
  select r = RouteList <->
  Method r = "GET" /\ exists n, URL_Path r = "/users" ++ slashes n.
Proof.
  unfold select, MethodGet, MethodPost.
  rewrite <- listUsersRe_matches.
  destruct (String.eqb_spec (Method r) "GET") as [Eg|Ng];
    destruct (MatchString listUsersRe (URL_Path r)) eqn:El; simpl.
  - tauto.
  - split; [| intros [_ ?]; discriminate].
    destruct (MatchString getUserRe (URL_Path r)); [discriminate |].
    destruct (String.eqb (Method r) "POST" && _); discriminate.
  - split; [| tauto].
    destruct (String.eqb (Method r) "POST" && _); discriminate.
  - split; [| tauto].
    destruct (String.eqb (Method r) "POST" && _); discriminate.
Qed.

Lemma select_get (r : Request) :
  select r = RouteGet <->
  Method r = "GET" /\
  exists d, digit_key d = true /\ URL_Path r = "/users/" ++ d.
Proof.
  unfold select, MethodGet, MethodPost.
  rewrite <- getUserRe_matches.
  destruct (String.eqb_spec (Method r) "GET") as [Eg|Ng]; simpl.
  - destruct (MatchString getUserRe (URL_Path r)) eqn:Eg'.
    + rewrite (getUserRe_not_listUsersRe _ Eg'). tauto.
    + destruct (MatchString listUsersRe (URL_Path r));
        [split; [discriminate | intros [_ ?]; discriminate] |].
      split; [| intros [_ ?]; discriminate].
      destruct (String.eqb (Method r) "POST" && _); discriminate.
  - split; [| tauto].
    destruct (String.eqb (Method r) "POST" && _); discriminate.
Qed.

Lemma select_create (r : Request) :
  select r = RouteCreate <->
  Method r = "POST" /\ exists n, URL_Path r = "/users" ++ slashes n.
Proof.
  unfold select, MethodGet, MethodPost, createUserRe.
  fold listUsersRe. rewrite <- listUsersRe_matches.
  destruct (String.eqb_spec (Method r) "GET") as [Eg|Ng]; simpl.
  - rewrite Eg. simpl.
    destruct (MatchString listUsersRe (URL_Path r));
      [split; [discriminate | intros [? _]; discriminate] |].
    destruct (MatchString getUserRe (URL_Path r));
      split; try discriminate; intros [? _]; discriminate.
  - destruct (String.eqb_spec (Method r) "POST") as [Ep|Np]; simpl.
    + destruct (MatchString listUsersRe (URL_Path r)); [tauto |].
      split; [discriminate | intros [_ ?]; discriminate].
    + split; [discriminate | tauto].
Qed.

Lemma run_ServeHTTP (r : Request) (m : gmap string user) :
  run (ServeHTTP r) m =
  (match select r with
   | RouteList => List r
   | RouteGet => Get r
   | RouteCreate => Create r
   | RouteNotFound => notFound r
   end) (mk_world m [EvHeaderSet "content-type" "application/json"]).
Proof. reflexivity. Qed.

(** C3, as amended: the dispatcher is total and selects exactly one case.
    List is selected exactly for GET on [/users] followed by any number of
    slashes, Get exactly for GET on [/users/] followed by one or more decimal
    digits and nothing else, Create exactly for POST on [/users] followed by
    any number of slashes; every other pair of method and path is answered
    with 404 and the not-found body, the store left as it was. *)
Theorem routing_exact (r : Request) (m : gmap string user) :
  (select r = RouteList <->
     Method r = "GET" /\ exists n, URL_Path r = "/users" ++ slashes n) /\
  (select r = RouteGet <->
     Method r = "GET" /\
     exists d, digit_key d = true /\ URL_Path r = "/users/" ++ d) /\
  (select r = RouteCreate <->
     Method r = "POST" /\ exists n, URL_Path r = "/users" ++ slashes n) /\
  (select r = RouteNotFound <->
     ~ (Method r = "GET" /\ exists n, URL_Path r = "/users" ++ slashes n) /\
     ~ (Method r = "GET" /\
        exists d, digit_key d = true /\ URL_Path r = "/users/" ++ d) /\
     ~ (Method r = "POST" /\ exists n, URL_Path r = "/users" ++ slashes n)) /\
  (select r = RouteNotFound ->
     run (ServeHTTP r) m =
     (Return tt,
      mk_world m [EvHeaderSet "content-type" "application/json";
                  EvWriteHeader 404; EvWrite notFound_body])).
Proof.
  split; [apply select_list |].
  split; [apply select_get |].
  split; [apply select_create |].
  split.
  - rewrite <- select_list, <- select_get, <- select_create.
    destruct (select r); intuition congruence.
  - intros E. rewrite run_ServeHTTP, E. reflexivity.
Qed.

End Routing.

(** ** What each handler does *)

Section Handlers.
Context {json : EncodingJSON} {iteration : MapIteration}.

(** Unfold the primitive operations of a handler and normalise its trace. *)
Ltac run_ops :=
  unfold badRequest, notFound, internalServerError;
  unfold WriteHeader, Write, Header_Set, RLock, RUnlock, Lock, Unlock,
    map_len, map_index, map_assign, map_range, slice_index;
  unfold bind, ret, panic, emit;
  simpl; rewrite <- ?app_assoc; simpl.

Lemma List_run (r : Request) (m : gmap string user) (tr : list event) :
  List r (mk_world m tr) =
  match json_Marshal_users (range_values m) with
  | Some b =>
      (Return tt,
       mk_world m (tr ++ [EvMapLen; EvRLock; EvMapRange; EvRUnlock;
                          EvWriteHeader 200; EvWrite b])%list)
  | None =>
      (Return tt,
       mk_world m (tr ++ [EvMapLen; EvRLock; EvMapRange; EvRUnlock;
                          EvWriteHeader 500;
                          EvWrite internalServerError_body])%list)
  end.
Proof.
  unfold List. run_ops.
  destruct (json_Marshal_users (range_values m)); now run_ops.
Qed.

Lemma Create_run (r : Request) (m : gmap string user) (tr : list event) :
  Create r (mk_world m tr) =
  match json_Decode (Body r) with
  | None =>
      (Return tt,
       mk_world m (tr ++ [EvWriteHeader 400; EvWrite badRequest_body])%list)
  | Some u =>
      match json_Marshal_user u with
      | Some b =>
          (Return tt,
           mk_world (<[ID u:=u]> m)
             (tr ++ [EvLock; EvMapAssign (ID u); EvUnlock;
                     EvWriteHeader 200; EvWrite b])%list)
      | None =>
          (Return tt,
           mk_world (<[ID u:=u]> m)
             (tr ++ [EvLock; EvMapAssign (ID u); EvUnlock;
                     EvWriteHeader 500;
                     EvWrite internalServerError_body])%list)
      end
  end.
Proof.
  unfold Create. destruct (json_Decode (Body r)) as [u|]; simpl.
  - run_ops. destruct (json_Marshal_user u); now run_ops.
  - now run_ops.
Qed.

Lemma Get_run_key (r : Request) (d : string) (m : gmap string user)
    (tr : list event) :
  digit_key d = true ->
  URL_Path r = "/users/" ++ d ->
  Get r (mk_world m tr) =
  match m !! d with
  | None =>
      (Return tt,
       mk_world m (tr ++ [EvRLock; EvMapIndex d; EvRUnlock;
                          EvWriteHeader 404; EvWrite notFound_body])%list)
  | Some u =>
      match json_Marshal_user u with
      | Some b =>
          (Return tt,
           mk_world m (tr ++ [EvRLock; EvMapIndex d; EvRUnlock;
                              EvWriteHeader 200; EvWrite b])%list)
      | None =>
          (Return tt,
           mk_world m (tr ++ [EvRLock; EvMapIndex d; EvRUnlock;
                              EvWriteHeader 500;
                              EvWrite internalServerError_body])%list)
      end
  end.
Proof.
  intros Hd Hp. unfold Get. rewrite Hp, (FindStringSubmatch_key d Hd).
  run_ops. destruct (m !! d) as [u|]; [| now run_ops].
  destruct (json_Marshal_user u); now run_ops.
Qed.

Lemma Get_run_unmatched (r : Request) (m : gmap string user) (tr : list event) :
  MatchString getUserRe (URL_Path r) = false ->
  Get r (mk_world m tr) =
  (Panic "index out of range",
   mk_world m (tr ++ [EvWriteHeader 404; EvWrite notFound_body; EvRLock])%list).
Proof.
  intros Hn. unfold Get, FindStringSubmatch_getUserRe. rewrite Hn.
  now run_ops.
Qed.

Lemma serve_RouteCreate (r : Request) (m : gmap string user) :
  select r = RouteCreate ->
  serve r m = match json_Decode (Body r) with
              | Some u => <[ID u:=u]> m
              | None => m
              end.
Proof.
  intros E. unfold serve. rewrite run_ServeHTTP, E, Create_run.
  destruct (json_Decode (Body r)) as [u|]; [| reflexivity].
  now destruct (json_Marshal_user u).
Qed.

Lemma serve_not_RouteCreate (r : Request) (m : gmap string user) :
  select r <> RouteCreate -> serve r m = m.
Proof.
  intros N. unfold serve. rewrite run_ServeHTTP.
  destruct (select r) eqn:E; try congruence.
  - rewrite List_run. now destruct (json_Marshal_users _).
  - apply select_get in E as (_ & d & Hd & Hp).
    rewrite (Get_run_key r d _ _ Hd Hp).
    destruct (m !! d) as [u|]; [| reflexivity].
    now destruct (json_Marshal_user u).
  - reflexivity.
Qed.

Lemma serve_lookup_other (k : string) (r : Request) (m : gmap string user) :
  creates_key k r = false -> serve r m !! k = m !! k.
Proof.
  unfold creates_key. intros Hc.
  destruct (select r) eqn:E;
    try (rewrite serve_not_RouteCreate; [reflexivity | congruence]).
  rewrite (serve_RouteCreate r m E).
  destruct (json_Decode (Body r)) as [u|]; [| reflexivity].
  apply lookup_insert_ne. intros Heq. rewrite Heq, String.eqb_refl in Hc.
  discriminate.
Qed.

Lemma serve_all_lookup_other (k : string) (rs : list Request) :
  forall m, forallb (fun r => negb (creates_key k r)) rs = true ->
            serve_all rs m !! k = m !! k.
Proof.
  induction rs as [|r rs IH]; intros m Hrs; simpl in *; [reflexivity |].
  apply andb_true_iff in Hrs as [Hr Hrs].
  unfold serve_all in *. simpl. rewrite (IH _ Hrs).
  apply serve_lookup_other. now apply negb_true_iff.
Qed.

Lemma ServeHTTP_get_key (d body : string) (m : gmap string user) :
  digit_key d = true ->
  run (ServeHTTP (mk_Request "GET" ("/users/" ++ d) body)) m =
  Get (mk_Request "GET" ("/users/" ++ d) body)
      (mk_world m [EvHeaderSet "content-type" "application/json"]).
Proof.
  intros Hd. rewrite run_ServeHTTP.
  replace (select (mk_Request "GET" ("/users/" ++ d) body)) with RouteGet;
    [reflexivity |].
  symmetry. apply select_get. eauto.
Qed.

End Handlers.

(** ** The claims about the handlers *)

Section Claims.
Context {json : EncodingJSON} {iteration : MapIteration}.

(** C1, as amended: when Create accepts a body that decodes to the record
    [u] (it answers 200) and the id of [u] is one or more decimal digits,
    then after any further requests, none of which stores a record under
    that id, GET on [/users/] followed by the id answers 200 with exactly
    the serialization of [u]. *)
Theorem create_then_get_roundtrip (m : gmap string user) (r : Request)
    (u : user) (rs : list Request) (body : string) :
  select r = RouteCreate ->
  json_Decode (Body r) = Some u ->
  response_status (response r m) = Some 200 ->
  digit_key (ID u) = true ->
  forallb (fun r' => negb (creates_key (ID u) r')) rs = true ->
  exists b,
    json_Marshal_user u = Some b /\
    run (ServeHTTP (mk_Request "GET" ("/users/" ++ ID u) body))
        (serve_all rs (serve r m)) =
    (Return tt,
     mk_world (serve_all rs (serve r m))
       [EvHeaderSet "content-type" "application/json";
        EvRLock; EvMapIndex (ID u); EvRUnlock;
        EvWriteHeader 200; EvWrite b]).
Proof.
  intros Hsel Hdec Hok Hkey Hrs.
  assert (Hm : json_Marshal_user u <> None).
  { intros Hnone. unfold response in Hok.
    rewrite run_ServeHTTP, Hsel, Create_run, Hdec, Hnone in Hok.
    discriminate. }
  destruct (json_Marshal_user u) as [b|] eqn:Hb; [| congruence].
  exists b. split; [reflexivity |].
  rewrite (ServeHTTP_get_key _ _ _ Hkey).
  rewrite (Get_run_key _ (ID u) _ _ Hkey); [| reflexivity].
  rewrite (serve_all_lookup_other _ _ _ Hrs), (serve_RouteCreate _ _ Hsel), Hdec.
  rewrite lookup_insert_eq, Hb. reflexivity.
Qed.

(** C2, as amended: a body on which [Decode] returns an error is answered
    with 400 and the bad-request body, the map of the store is the same after
    the request as before it, and a request routed to List afterwards
    serializes the records the map held before, each once. *)
Theorem create_bad_request_atomic (m : gmap string user) (r : Request) :
  json_Decode (Body r) = None ->
  run (Create r) m =
    (Return tt, mk_world m [EvWriteHeader 400; EvWrite badRequest_body]) /\
  error_field badRequest_body = Some "bad request" /\
  (select r = RouteCreate ->
     serve r m = m /\
     response_status (response r m) = Some 400 /\
     response_body (response r m) = badRequest_body) /\
  (forall r',
     select r' = RouteList ->
     range_values (store_m (snd (run (Create r) m))) ≡ₚ (map_to_list m).*2 /\
     response r' (store_m (snd (run (Create r) m))) =
       ([EvHeaderSet "content-type" "application/json";
         EvMapLen; EvRLock; EvMapRange; EvRUnlock] ++
        match json_Marshal_users
                (range_values (store_m (snd (run (Create r) m)))) with
        | Some b => [EvWriteHeader 200; EvWrite b]
        | None => [EvWriteHeader 500; EvWrite internalServerError_body]
        end)%list).
Proof.
  intros Hdec.
  assert (Hrun : run (Create r) m =
    (Return tt, mk_world m [EvWriteHeader 400; EvWrite badRequest_body])).
  { unfold run. now rewrite Create_run, Hdec. }
  split; [exact Hrun |]. split; [reflexivity |]. split.
  - intros Hsel. rewrite (serve_RouteCreate _ _ Hsel), Hdec.
    unfold response. rewrite run_ServeHTTP, Hsel, Create_run, Hdec.
    repeat split; reflexivity.
  - intros r' Hlist. rewrite Hrun. simpl. split; [apply range_values_perm |].
    unfold response. rewrite run_ServeHTTP, Hlist, List_run.
    now destruct (json_Marshal_users (range_values m)).
Qed.

(** C4: whatever the request, the dispatcher returns, and its trace is the
    content-type header, then accesses to the store only, then one
    [WriteHeader] and one [Write] as the last two events; the pair written is
    200 with a serialized record or list, or one of the three error pairs. *)
Theorem single_response (m : gmap string user) (r : Request) :
  exists pre code b,
    fst (run (ServeHTTP r) m) = Return tt /\
    response r m =
      (EvHeaderSet "content-type" "application/json" :: pre
         ++ [EvWriteHeader code; EvWrite b])%list /\
    forallb is_store_event pre = true /\
    writes (response r m) = [EvWriteHeader code; EvWrite b] /\
    ((code = 200 /\
      ((exists u, json_Marshal_user u = Some b) \/
       (exists l, json_Marshal_users l = Some b))) \/
     (code = 400 /\ b = badRequest_body) \/
     (code = 404 /\ b = notFound_body) \/
     (code = 500 /\ b = internalServerError_body)).
Proof.
  unfold response. rewrite run_ServeHTTP.
  destruct (select r) eqn:Hsel.
  - rewrite List_run.
    destruct (json_Marshal_users (range_values m)) as [b|] eqn:Hb.
    + exists [EvMapLen; EvRLock; EvMapRange; EvRUnlock], 200, b.
      repeat split; try reflexivity. left. split; [reflexivity |]. eauto.
    + exists [EvMapLen; EvRLock; EvMapRange; EvRUnlock], 500,
        internalServerError_body.
      repeat split; try reflexivity. auto.
  - apply select_get in Hsel as (_ & d & Hd & Hp).
    rewrite (Get_run_key r d _ _ Hd Hp).
    destruct (m !! d) as [u|].
    + destruct (json_Marshal_user u) as [b|] eqn:Hb.
      * exists [EvRLock; EvMapIndex d; EvRUnlock], 200, b.
        repeat split; try reflexivity. left. split; [reflexivity |]. eauto.
      * exists [EvRLock; EvMapIndex d; EvRUnlock], 500,
          internalServerError_body.
        repeat split; try reflexivity. auto.
    + exists [EvRLock; EvMapIndex d; EvRUnlock], 404, notFound_body.
      repeat split; try reflexivity. auto.
  - rewrite Create_run. destruct (json_Decode (Body r)) as [u|].
    + destruct (json_Marshal_user u) as [b|] eqn:Hb.
      * exists [EvLock; EvMapAssign (ID u); EvUnlock], 200, b.
        repeat split; try reflexivity. left. split; [reflexivity |]. eauto.
      * exists [EvLock; EvMapAssign (ID u); EvUnlock], 500,
          internalServerError_body.
        repeat split; try reflexivity. auto.
    + exists [], 400, badRequest_body.
      repeat split; try reflexivity. auto.
  - exists [], 404, notFound_body.
    repeat split; try reflexivity. auto.
Qed.

(** C5: when submatch extraction yields fewer than two groups, Get writes
    the not-found response, does not return, takes the read lock and then
    indexes the match result out of range, which panics before the map is
    read; the read lock is still held. *)
Theorem get_capture_failure (m : gmap string user) (r : Request) :
  (length (FindStringSubmatch_getUserRe (URL_Path r)) < 2)%nat ->
  run (Get r) m =
  (Panic "index out of range",
   mk_world m [EvWriteHeader 404; EvWrite notFound_body; EvRLock]).
Proof.
  intros Hlen. rewrite FindStringSubmatch_length in Hlen.
  destruct (MatchString getUserRe (URL_Path r)) eqn:Hm; [lia |].
  unfold run. now rewrite Get_run_unmatched.
Qed.

(** C6, as amended: two Creates with the same id leave one record under
    that id, the second one, and no further entry; when the id is one or
    more decimal digits, a GET on [/users/] followed by the id then answers
    200 with the serialization of the second record. *)
Theorem create_overwrites (m : gmap string user) (r1 r2 : Request)
    (u1 u2 : user) :
  json_Decode (Body r1) = Some u1 ->
  json_Decode (Body r2) = Some u2 ->
  ID u1 = ID u2 ->
  let m1 := store_m (snd (run (Create r1) m)) in
  let m2 := store_m (snd (run (Create r2) m1)) in
  m2 !! ID u2 = Some u2 /\
  m2 = <[ID u2:=u2]> m /\
  size m2 = size m1 /\
  (digit_key (ID u2) = true ->
   forall b body,
     json_Marshal_user u2 = Some b ->
     run (ServeHTTP (mk_Request "GET" ("/users/" ++ ID u2) body)) m2 =
     (Return tt,
      mk_world m2
        [EvHeaderSet "content-type" "application/json";
         EvRLock; EvMapIndex (ID u2); EvRUnlock;
         EvWriteHeader 200; EvWrite b])).
Proof.
  intros Hd1 Hd2 Hid m1 m2.
  assert (Hm1 : m1 = <[ID u2:=u1]> m).
  { unfold m1, run. rewrite Create_run, Hd1, Hid.
    now destruct (json_Marshal_user u1). }
  assert (Hm2 : m2 = <[ID u2:=u2]> m1).
  { unfold m2, run. rewrite Create_run, Hd2.
    now destruct (json_Marshal_user u2). }
  assert (Hlook : m2 !! ID u2 = Some u2).
  { rewrite Hm2. apply lookup_insert_eq. }
  split; [exact Hlook |]. split; [| split].
  - rewrite Hm2, Hm1. apply insert_insert_eq.
  - rewrite Hm2. apply map_size_insert_Some.
    rewrite Hm1, lookup_insert_eq. eauto.
  - intros Hkey b body Hb.
    rewrite (ServeHTTP_get_key _ _ _ Hkey).
    rewrite (Get_run_key _ (ID u2) _ _ Hkey); [| reflexivity].
    rewrite Hlook, Hb. reflexivity.
Qed.

(** C7, as amended: for a key of one or more decimal digits with no record
    in the store, GET on [/users/] followed by the key answers 404, and the
    body is exactly the bytes the helper writes, with a space on each side of
    the colon. *)
Theorem get_absent_not_found (m : gmap string user) (d body : string) :
  digit_key d = true ->
  m !! d = None ->
  run (ServeHTTP (mk_Request "GET" ("/users/" ++ d) body)) m =
  (Return tt,
   mk_world m
     [EvHeaderSet "content-type" "application/json";
      EvRLock; EvMapIndex d; EvRUnlock;
      EvWriteHeader 404;
      EvWrite ("{" ++ dq ++ "error" ++ dq ++ " : " ++ dq ++ "not found" ++ dq ++ "}")]).
Proof.
  intros Hkey Hnone.
  rewrite (ServeHTTP_get_key _ _ _ Hkey).
  rewrite (Get_run_key _ d _ _ Hkey); [| reflexivity].
  rewrite Hnone. reflexivity.
Qed.

(** C8: the 500 helper writes status 500 and a JSON object with the single
    member [error], but its text is [interval server error], not
    [internal server error]; the two other helpers carry [bad request] and
    [not found]. *)
Theorem internalServerError_body_text (m : gmap string user) (r : Request) :
  run (internalServerError r) m =
    (Return tt,
     mk_world m [EvWriteHeader 500; EvWrite internalServerError_body]) /\
  error_field internalServerError_body = Some "interval server error" /\
  error_field internalServerError_body <> Some "internal server error" /\
  error_field badRequest_body = Some "bad request" /\
  error_field notFound_body = Some "not found".
Proof. repeat split; try reflexivity. discriminate. Qed.

(** The 500 helper is what List answers with when serialization fails. *)
Lemma List_marshal_failure (m : gmap string user) (r : Request) :
  json_Marshal_users (range_values m) = None ->
  select r = RouteList ->
  response_status (response r m) = Some 500 /\
  error_field (response_body (response r m)) = Some "interval server error".
Proof.
  intros Hnone Hsel. unfold response.
  rewrite run_ServeHTTP, Hsel, List_run, Hnone. split; reflexivity.
Qed.

(** C9: the trace of a request keeps the lock discipline (reads of the map
    under the lock, writes under the exclusive lock) exactly when the request
    is not routed to List: List reads the size of the map as its first
    access, before it takes the read lock. *)
Theorem lock_discipline_except_List (m : gmap string user) (r : Request) :
  lock_discipline (response r m) =
    match select r with RouteList => false | _ => true end /\
  (exists rest, trace (snd (run (List r) m)) = EvMapLen :: EvRLock :: rest).
Proof.
  split.
  - unfold response. rewrite run_ServeHTTP.
    destruct (select r) eqn:Hsel.
    + rewrite List_run. now destruct (json_Marshal_users _).
    + apply select_get in Hsel as (_ & d & Hd & Hp).
      rewrite (Get_run_key r d _ _ Hd Hp).
      destruct (m !! d) as [u|]; [| reflexivity].
      now destruct (json_Marshal_user u).
    + rewrite Create_run. destruct (json_Decode (Body r)) as [u|]; [| reflexivity].
      now destruct (json_Marshal_user u).
    + reflexivity.
  - unfold run. rewrite List_run.
    destruct (json_Marshal_users _); simpl; eauto.
Qed.


End Claims.

(** ** Further properties of the handlers *)

Section Further.
Context {json : EncodingJSON} {iteration : MapIteration}.

(** The effect of one request on the map of the store. *)
Lemma serve_stored_by (r : Request) (m : gmap string user) :
  serve r m = match stored_by r with
              | Some u => <[ID u:=u]> m
              | None => m
              end.
Proof.
  unfold stored_by. destruct (select r) eqn:Hsel;
    try (rewrite serve_not_RouteCreate; [reflexivity | congruence]).
  rewrite (serve_RouteCreate _ _ Hsel).
  now destruct (json_Decode (Body r)).
Qed.

Lemma string_drop_users (d : string) : string_drop 7 ("/users/" ++ d) = d.
Proof. reflexivity. Qed.

(** X1: GET on [/users/] followed by a digit key that holds a record
    answers 200 with the serialization of the record stored under that key,
    whatever the id written in the record, and leaves the store as it was. *)
Theorem get_present_ok (m : gmap string user) (d body : string) (u : user)
    (b : string) :
  digit_key d = true ->
  m !! d = Some u ->
  json_Marshal_user u = Some b ->
  run (ServeHTTP (mk_Request "GET" ("/users/" ++ d) body)) m =
  (Return tt,
   mk_world m
     [EvHeaderSet "content-type" "application/json";
      EvRLock; EvMapIndex d; EvRUnlock;
      EvWriteHeader 200; EvWrite b]).
Proof.
  intros Hkey Hsome Hb.
  rewrite (ServeHTTP_get_key _ _ _ Hkey).
  rewrite (Get_run_key _ d _ _ Hkey); [| reflexivity].
  rewrite Hsome, Hb. reflexivity.
Qed.

(** X2: a request routed to List returns, leaves the store as it was, and
    serializes a slice that holds exactly the records of the map, one per
    key (so as many as the map has keys, none for the empty map); it answers
    200 with that serialization, or 500 when serialization fails. *)
Theorem list_serves_all_values (m : gmap string user) (r : Request) :
  select r = RouteList ->
  length (range_values m) = size m /\
  (forall u, u ∈ range_values m <-> exists k, m !! k = Some u) /\
  fst (run (ServeHTTP r) m) = Return tt /\
  serve r m = m /\
  response r m =
    ([EvHeaderSet "content-type" "application/json";
      EvMapLen; EvRLock; EvMapRange; EvRUnlock] ++
     match json_Marshal_users (range_values m) with
     | Some b => [EvWriteHeader 200; EvWrite b]
     | None => [EvWriteHeader 500; EvWrite internalServerError_body]
     end)%list.
Proof.
  intros Hsel. split; [| split].
  - rewrite range_values_perm, length_fmap. apply length_map_to_list.
  - intros u. rewrite range_values_perm, list_elem_of_fmap. split.
    + intros ([k v] & -> & Hin). exists k. now apply elem_of_map_to_list.
    + intros [k Hk]. exists (k, u). split; [reflexivity |].
      now apply elem_of_map_to_list.
  - unfold serve, response. rewrite run_ServeHTTP, Hsel, List_run.
    destruct (json_Marshal_users (range_values m)); repeat split; reflexivity.
Qed.

(** X3: requests whose method is not POST never change the store, however
    many of them are served and whatever their paths and bodies. *)
Theorem non_post_requests_read_only (rs : list Request) :
  forall m : gmap string user,
    forallb (fun r => negb (String.eqb (Method r) MethodPost)) rs = true ->
    serve_all rs m = m.
Proof.
  induction rs as [|r rs IH]; intros m Hrs; [reflexivity |].
  simpl in Hrs. apply andb_true_iff in Hrs as [Hr Hrs].
  change (serve_all (r :: rs) m) with (serve_all rs (serve r m)).
  rewrite serve_not_RouteCreate; [now apply IH |].
  intros Hsel. apply select_create in Hsel as [Hm _].
  unfold MethodPost in Hr. rewrite Hm in Hr. discriminate.
Qed.

(** X4: no request removes a key from the store: after any sequence of
    requests every key that was in the map is still there, and the map has
    grown by at most one key for each request served. *)
Theorem store_only_grows (rs : list Request) :
  forall m : gmap string user,
    dom m ⊆ dom (serve_all rs m) /\
    (size m <= size (serve_all rs m) <= size m + length rs)%nat.
Proof.
  induction rs as [|r rs IH]; intros m.
  - split; [reflexivity | simpl; lia].
  - change (serve_all (r :: rs) m) with (serve_all rs (serve r m)).
    destruct (IH (serve r m)) as [Hdom Hsize].
    assert (Hstep : dom m ⊆ dom (serve r m) /\
                    (size m <= size (serve r m) <= S (size m))%nat).
    { rewrite serve_stored_by. destruct (stored_by r) as [u|].
      - split; [apply dom_insert_subseteq |].
        rewrite map_size_insert. destruct (m !! ID u); simpl; lia.
      - split; [reflexivity | lia]. }
    destruct Hstep as [Hdom1 Hsize1]. split.
    + etransitivity; eassumption.
    + simpl. lia.
Qed.

(** X5: last write wins over any sequence of requests: after serving [rs],
    the record under a key is the one stored by the last request of [rs]
    that stores under that key, and the record the map held before when no
    request of [rs] does. *)
Theorem serve_all_last_write_wins (rs : list Request) :
  forall (m : gmap string user) (k : string),
    serve_all rs m !! k =
    match last_created k rs with
    | Some u => Some u
    | None => m !! k
    end.
Proof.
  induction rs as [|r rs IH]; intros m k; [reflexivity |].
  change (serve_all (r :: rs) m) with (serve_all rs (serve r m)).
  rewrite IH. simpl. destruct (last_created k rs); [reflexivity |].
  rewrite serve_stored_by. destruct (stored_by r) as [u|]; [| reflexivity].
  destruct (String.eqb_spec (ID u) k) as [->|Hne].
  - apply lookup_insert_eq.
  - now apply lookup_insert_ne.
Qed.

(** X6: every record that requests put in the store is stored under its own
    id: after any sequence of requests, an entry of the map is either the
    entry the map held before under that key, or a record whose id is the
    key.  A map in which every record is stored under its id stays so. *)
Theorem entries_keyed_by_id (rs : list Request) :
  forall m : gmap string user,
    (forall k u, serve_all rs m !! k = Some u ->
                 m !! k = Some u \/ ID u = k) /\
    ((forall k u, m !! k = Some u -> ID u = k) ->
     forall k u, serve_all rs m !! k = Some u -> ID u = k).
Proof.
  assert (Hmain : forall m k u, serve_all rs m !! k = Some u ->
                                m !! k = Some u \/ ID u = k).
  { induction rs as [|r rs IH]; intros m k u Hlook; [now left |].
    change (serve_all (r :: rs) m) with (serve_all rs (serve r m)) in Hlook.
    destruct (IH _ _ _ Hlook) as [Hprev|Hid]; [| now right].
    rewrite serve_stored_by in Hprev.
    destruct (stored_by r) as [v|]; [| now left].
    rewrite lookup_insert in Hprev. destruct (decide (ID v = k)) as [Heq|Hne].
    - right. congruence.
    - now left. }
  intros m. split; [apply Hmain |].
  intros Hinv k u Hlook. destruct (Hmain _ _ _ Hlook) as [Hold|Hid]; auto.
Qed.

(** X7: serving a request a second time leaves the store as the first time
    left it, and, unless the request is routed to List (whose order of
    iteration is not fixed), the second answer is the first answer. *)
Theorem request_idempotent (m : gmap string user) (r : Request) :
  serve r (serve r m) = serve r m /\
  (select r <> RouteList -> response r (serve r m) = response r m).
Proof.
  split.
  - rewrite !serve_stored_by. destruct (stored_by r) as [u|]; [| reflexivity].
    apply insert_insert_eq.
  - intros Hsel. unfold response. rewrite !run_ServeHTTP.
    destruct (select r) eqn:Hr; [congruence | | |].
    + rewrite serve_not_RouteCreate; [reflexivity | congruence].
    + rewrite !Create_run.
      destruct (json_Decode (Body r)) as [v|];
        [destruct (json_Marshal_user v) |]; reflexivity.
    + reflexivity.
Qed.

(** X8: two requests that store records with different ids can be served in
    either order: the store ends up the same and holds both records. *)
Theorem creates_commute (m : gmap string user) (r1 r2 : Request)
    (u1 u2 : user) :
  stored_by r1 = Some u1 ->
  stored_by r2 = Some u2 ->
  String.eqb (ID u1) (ID u2) = false ->
  serve r1 (serve r2 m) = serve r2 (serve r1 m) /\
  serve r2 (serve r1 m) !! ID u1 = Some u1 /\
  serve r2 (serve r1 m) !! ID u2 = Some u2.
Proof.
  intros H1 H2 Hne. apply String.eqb_neq in Hne.
  rewrite !serve_stored_by, H1, H2. split; [| split].
  - now apply insert_insert_ne.
  - rewrite lookup_insert_ne by congruence. apply lookup_insert_eq.
  - apply lookup_insert_eq.
Qed.

(** X9: a request routed to Create whose body decodes to a record stores
    that record under its id, under the write lock, before it writes
    anything, and then answers 200 with the serialization of the decoded
    record, which it does not read back from the map. *)
Theorem create_stores_then_echoes (m : gmap string user) (r : Request)
    (u : user) (b : string) :
  select r = RouteCreate ->
  json_Decode (Body r) = Some u ->
  json_Marshal_user u = Some b ->
  run (ServeHTTP r) m =
  (Return tt,
   mk_world (<[ID u:=u]> m)
     [EvHeaderSet "content-type" "application/json";
      EvLock; EvMapAssign (ID u); EvUnlock;
      EvWriteHeader 200; EvWrite b]).
Proof.
  intros Hsel Hdec Hb.
  now rewrite run_ServeHTTP, Hsel, Create_run, Hdec, Hb.
Qed.

(** X10: whatever the request, the dispatcher takes the lock only when it
    does not hold it, releases it in the mode it took it in, writes the
    response only after the lock is released, and holds no lock when it
    returns.  Get called on a path its pattern does not match is different:
    it panics with the read lock still held. *)
Theorem locks_released_before_write (m : gmap string user) (r : Request) :
  lock_usage (response r m) = Some Unheld /\
  (MatchString getUserRe (URL_Path r) = false ->
   lock_usage (trace (snd (run (Get r) m))) = Some Shared).
Proof.
  split.
  - unfold response. rewrite run_ServeHTTP.
    destruct (select r) eqn:Hsel.
    + rewrite List_run. now destruct (json_Marshal_users _).
    + apply select_get in Hsel as (_ & d & Hd & Hp).
      rewrite (Get_run_key r d _ _ Hd Hp).
      destruct (m !! d) as [u|]; [| reflexivity].
      now destruct (json_Marshal_user u).
    + rewrite Create_run.
      destruct (json_Decode (Body r)) as [u|]; [| reflexivity].
      now destruct (json_Marshal_user u).
    + reflexivity.
  - intros Hno. unfold run. now rewrite Get_run_unmatched.
Qed.

(** X11: the submatch of the Get pattern is [nil] or the path followed by
    the key, and it is the path followed by [k] exactly when [k] is one or
    more decimal digits and the path is [/users/] followed by [k]: the key
    Get looks up is the path without its first seven bytes. *)
Theorem get_route_captures_key (p : string) :
  (FindStringSubmatch_getUserRe p = [] \/
   FindStringSubmatch_getUserRe p = [p; string_drop 7 p]) /\
  (forall k, FindStringSubmatch_getUserRe p = [p; k] <->
             digit_key k = true /\ p = "/users/" ++ k).
Proof.
  split.
  - unfold FindStringSubmatch_getUserRe.
    destruct (MatchString getUserRe p); auto.
  - intros k. split.
    + unfold FindStringSubmatch_getUserRe.
      destruct (MatchString getUserRe p) eqn:Hm; [| discriminate].
      apply getUserRe_matches in Hm as (d & Hd & ->).
      rewrite string_drop_users. intros E. injection E as <-. auto.
    + intros [Hk ->]. now apply FindStringSubmatch_key.
Qed.

(** X12: at most one of the three guards of the [switch] holds for a
    request, so the order of its cases does not matter: the route selected
    is the one whose guard holds, and Not-Found when none does. *)
Theorem switch_guards_exclusive (r : Request) :
  guard_list r && guard_get r = false /\
  guard_list r && guard_create r = false /\
  guard_get r && guard_create r = false /\
  select r =
    (if guard_create r then RouteCreate
     else if guard_get r then RouteGet
     else if guard_list r then RouteList
     else RouteNotFound).
Proof.
  unfold guard_list, guard_get, guard_create, select, MethodGet, MethodPost.
  destruct (String.eqb_spec (Method r) "GET") as [Hg|Hg];
    destruct (String.eqb_spec (Method r) "POST") as [Hp|Hp];
    try (rewrite Hg in Hp; discriminate); simpl.
  - destruct (MatchString getUserRe (URL_Path r)) eqn:Hget.
    + rewrite (getUserRe_not_listUsersRe _ Hget). repeat split; reflexivity.
    + rewrite andb_false_r.
      destruct (MatchString listUsersRe (URL_Path r)); repeat split; reflexivity.
  - destruct (MatchString createUserRe (URL_Path r)); repeat split; reflexivity.
  - repeat split; reflexivity.
Qed.

(** X13: when the answer is 400 and when it is 404.  A request is answered
    400 exactly when it is routed to Create and its body does not decode; it
    is answered 404 exactly when no route matches, or it is routed to Get and
    the map has no record under the key, the path without its first seven
    bytes. *)
Theorem status_400_404 (m : gmap string user) (r : Request) :
  (response_status (response r m) = Some 400 <->
   select r = RouteCreate /\ json_Decode (Body r) = None) /\
  (response_status (response r m) = Some 404 <->
   select r = RouteNotFound \/
   (select r = RouteGet /\ m !! string_drop 7 (URL_Path r) = None)).
Proof.
  unfold response. rewrite run_ServeHTTP.
  destruct (select r) eqn:Hsel.
  - rewrite List_run.
    destruct (json_Marshal_users _); simpl; split; split;
      try discriminate; intuition discriminate.
  - apply select_get in Hsel as (_ & d & Hd & Hp).
    rewrite (Get_run_key r d _ _ Hd Hp), Hp, string_drop_users.
    destruct (m !! d) as [u|];
      [destruct (json_Marshal_user u) |]; simpl; split; split;
      try discriminate; intuition discriminate.
  - rewrite Create_run.
    destruct (json_Decode (Body r)) as [u|];
      [destruct (json_Marshal_user u) |]; simpl; split; split;
      try discriminate; intuition discriminate.
  - simpl. split; split; try discriminate; intuition discriminate.
Qed.

(** X14: a record that a request stores is in the slice that a request
    routed to List serializes, from then on and until a request stores
    another record under the same id. *)
Theorem created_record_listed (m : gmap string user) (r : Request) (u : user)
    (rs : list Request) :
  stored_by r = Some u ->
  forallb (fun r' => negb (creates_key (ID u) r')) rs = true ->
  serve_all rs (serve r m) !! ID u = Some u /\
  (forall r', select r' = RouteList ->
     u ∈ range_values (serve_all rs (serve r m)) /\
     response r' (serve_all rs (serve r m)) =
       ([EvHeaderSet "content-type" "application/json";
         EvMapLen; EvRLock; EvMapRange; EvRUnlock] ++
        match json_Marshal_users
                (range_values (serve_all rs (serve r m))) with
        | Some b => [EvWriteHeader 200; EvWrite b]
        | None => [EvWriteHeader 500; EvWrite internalServerError_body]
        end)%list).
Proof.
  intros Hst Hrs.
  assert (Hlook : serve_all rs (serve r m) !! ID u = Some u).
  { rewrite (serve_all_lookup_other _ _ _ Hrs), serve_stored_by, Hst.
    apply lookup_insert_eq. }
  split; [exact Hlook |].
  intros r' Hlist. split.
  - rewrite range_values_perm. apply list_elem_of_fmap.
    exists (ID u, u). split; [reflexivity |]. now apply elem_of_map_to_list.
  - unfold response. rewrite run_ServeHTTP, Hlist, List_run.
    now destruct (json_Marshal_users (range_values _)).
Qed.

End Further.

(** ** Concrete runs

    The handlers on the seed of [main], with the codec for objects of plain
    strings. *)

#[local] Existing Instance plain_json.
#[local] Existing Instance listed_order.

(** C1 as stated fails for an id that is not all digits: Create accepts the
    record, and the GET for it is answered 404. *)
Lemma create_then_get_non_digit_id :
  let r := mk_Request "POST" "/users" (user_body "MCI015" "Julian Alvarez") in
  let g := mk_Request "GET" "/users/MCI015" "" in
  select r = RouteCreate /\
  json_Decode (Body r) = Some (mk_user "MCI015" "Julian Alvarez") /\
  response_status (response r main_store) = Some 200 /\
  serve r main_store !! "MCI015" = Some (mk_user "MCI015" "Julian Alvarez") /\
  select g = RouteNotFound /\
  response_status (response g (serve r main_store)) = Some 404 /\
  response_body (response g (serve r main_store)) = notFound_body.
Proof. vm_compute. repeat split; reflexivity. Qed.

Lemma create_then_get_roundtrip_witness :
  let r := mk_Request "POST" "/users" (user_body "15" "Julian Alvarez") in
  let u := mk_user "15" "Julian Alvarez" in
  let rs := [mk_Request "GET" "/users" "";
             mk_Request "POST" "/users/" (user_body "16" "Rodri");
             mk_Request "POST" "/users" "15"] in
  select r = RouteCreate /\
  json_Decode (Body r) = Some u /\
  response_status (response r main_store) = Some 200 /\
  digit_key (ID u) = true /\
  forallb (fun r' => negb (creates_key (ID u) r')) rs = true /\
  exists b,
    json_Marshal_user u = Some b /\
    run (ServeHTTP (mk_Request "GET" ("/users/" ++ ID u) ""))
        (serve_all rs (serve r main_store)) =
    (Return tt,
     mk_world (serve_all rs (serve r main_store))
       [EvHeaderSet "content-type" "application/json";
        EvRLock; EvMapIndex (ID u); EvRUnlock;
        EvWriteHeader 200; EvWrite b]).
Proof.
  intros r u rs.
  assert (H1 : select r = RouteCreate) by reflexivity.
  assert (H2 : json_Decode (Body r) = Some u) by reflexivity.
  assert (H3 : response_status (response r main_store) = Some 200)
    by (vm_compute; reflexivity).
  assert (H4 : digit_key (ID u) = true) by reflexivity.
  assert (H5 : forallb (fun r' => negb (creates_key (ID u) r')) rs = true)
    by reflexivity.
  split; [exact H1 |]. split; [exact H2 |]. split; [exact H3 |].
  split; [exact H4 |]. split; [exact H5 |].
  exact (create_then_get_roundtrip main_store r u rs "" H1 H2 H3 H4 H5).
Defined.

(** C2 as stated fails on bodies that are JSON but not of the shape of a
    user: an object with neither [id] nor [name], and the value [null],
    decode without error; the request is answered 200 and the store gets a
    record under the empty id. *)
Lemma create_accepts_wrong_shape :
  let other := "{" ++ dq ++ "a" ++ dq ++ ":" ++ dq ++ "b" ++ dq ++ "}" in
  let r1 := mk_Request "POST" "/users" other in
  let r2 := mk_Request "POST" "/users" "null" in
  let empty := mk_user EmptyString EmptyString in
  main_store !! EmptyString = None /\
  json_Decode (Body r1) = Some empty /\
  response_status (response r1 main_store) = Some 200 /\
  response_body (response r1 main_store) = plain_Marshal_user empty /\
  serve r1 main_store !! EmptyString = Some empty /\
  json_Decode (Body r2) = Some empty /\
  response_status (response r2 main_store) = Some 200 /\
  serve r2 main_store !! EmptyString = Some empty.
Proof. vm_compute. repeat split; reflexivity. Qed.

Lemma create_bad_request_atomic_witness :
  let r := mk_Request "POST" "/users" "not json" in
  json_Decode (Body r) = None /\
  run (Create r) main_store =
    (Return tt,
     mk_world main_store [EvWriteHeader 400; EvWrite badRequest_body]).
Proof.
  intros r.
  assert (H1 : json_Decode (Body r) = None) by reflexivity.
  split; [exact H1 |].
  exact (proj1 (create_bad_request_atomic main_store r H1)).
Defined.

(** C3 as stated fails on a path with more than one trailing slash: GET on
    [/users//] is routed to List and POST on [/users///] to Create, and
    neither path is [/users] or [/users/]. *)
Lemma routing_more_slashes :
  select (mk_Request "GET" "/users//" "") = RouteList /\
  select (mk_Request "POST" "/users///" "") = RouteCreate /\
  "/users//" <> "/users" /\ "/users//" <> "/users/" /\
  "/users///" <> "/users" /\ "/users///" <> "/users/".
Proof. repeat split; try reflexivity; discriminate. Qed.

Lemma routing_exact_witness :
  let r := mk_Request "DELETE" "/users/1" "" in
  select r = RouteNotFound /\
  run (ServeHTTP r) main_store =
  (Return tt,
   mk_world main_store [EvHeaderSet "content-type" "application/json";
                        EvWriteHeader 404; EvWrite notFound_body]).
Proof.
  intros r.
  assert (H1 : select r = RouteNotFound) by reflexivity.
  split; [exact H1 |].
  exact (proj2 (proj2 (proj2 (proj2 (routing_exact r main_store)))) H1).
Defined.

Lemma get_capture_failure_witness :
  let r := mk_Request "GET" "/users/abc" "" in
  (length (FindStringSubmatch_getUserRe (URL_Path r)) < 2)%nat /\
  run (Get r) main_store =
  (Panic "index out of range",
   mk_world main_store [EvWriteHeader 404; EvWrite notFound_body; EvRLock]).
Proof.
  intros r.
  assert (H1 : (length (FindStringSubmatch_getUserRe (URL_Path r)) < 2)%nat)
    by (vm_compute; lia).
  split; [exact H1 |].
  exact (get_capture_failure main_store r H1).
Defined.

(** C6 as stated fails for an id that is not all digits: after the two
    Creates the second record is in the store, and the GET for its id is
    answered 404. *)
Lemma create_overwrites_non_digit_id :
  let r1 := mk_Request "POST" "/users" (user_body "abc" "T1") in
  let r2 := mk_Request "POST" "/users" (user_body "abc" "T2") in
  let g := mk_Request "GET" "/users/abc" "" in
  let m2 := serve r2 (serve r1 main_store) in
  response_status (response r1 main_store) = Some 200 /\
  response_status (response r2 (serve r1 main_store)) = Some 200 /\
  m2 !! "abc" = Some (mk_user "abc" "T2") /\
  response_status (response g m2) = Some 404 /\
  response_body (response g m2) = notFound_body.
Proof. vm_compute. repeat split; reflexivity. Qed.

Lemma create_overwrites_witness :
  let r1 := mk_Request "POST" "/users" (user_body "7" "T1") in
  let r2 := mk_Request "POST" "/users" (user_body "7" "T2") in
  let u1 := mk_user "7" "T1" in
  let u2 := mk_user "7" "T2" in
  let m2 := store_m (snd (run (Create r2)
                            (store_m (snd (run (Create r1) main_store))))) in
  json_Decode (Body r1) = Some u1 /\
  json_Decode (Body r2) = Some u2 /\
  ID u1 = ID u2 /\
  digit_key (ID u2) = true /\
  m2 !! "7" = Some u2 /\
  size m2 = 14%nat /\
  response_body (response (mk_Request "GET" "/users/7" "") m2) =
    plain_Marshal_user u2.
Proof.
  intros r1 r2 u1 u2 m2.
  assert (H1 : json_Decode (Body r1) = Some u1) by reflexivity.
  assert (H2 : json_Decode (Body r2) = Some u2) by reflexivity.
  assert (H3 : ID u1 = ID u2) by reflexivity.
  assert (H4 : digit_key (ID u2) = true) by reflexivity.
  split; [exact H1 |]. split; [exact H2 |].
  split; [exact H3 |]. split; [exact H4 |].
  destruct (create_overwrites main_store r1 r2 u1 u2 H1 H2 H3)
    as (Hl & _ & Hs & Hg).
  split; [exact Hl |]. split.
  - etransitivity; [exact Hs |]. vm_compute. reflexivity.
  - exact (f_equal (fun x => response_body (trace (snd x)))
             (Hg H4 (plain_Marshal_user u2) "" eq_refl)).
Defined.

(** C7 as stated fails on the bytes of the body: the body written has a
    space on each side of the colon. *)
Lemma get_absent_body_bytes :
  let g := mk_Request "GET" "/users/999" "" in
  digit_key "999" = true /\
  main_store !! "999" = None /\
  response_status (response g main_store) = Some 404 /\
  response_body (response g main_store) =
    "{" ++ dq ++ "error" ++ dq ++ " : " ++ dq ++ "not found" ++ dq ++ "}" /\
  response_body (response g main_store) <>
    "{" ++ dq ++ "error" ++ dq ++ ":" ++ dq ++ "not found" ++ dq ++ "}".
Proof. vm_compute. repeat split; try reflexivity. discriminate. Qed.

Lemma get_absent_not_found_witness :
  digit_key "999" = true /\
  main_store !! "999" = None /\
  response_status (response (mk_Request "GET" "/users/999" "") main_store) =
    Some 404.
Proof.
  assert (H1 : digit_key "999" = true) by reflexivity.
  assert (H2 : main_store !! "999" = None) by (vm_compute; reflexivity).
  split; [exact H1 |]. split; [exact H2 |].
  exact (f_equal (fun x => response_status (trace (snd x)))
           (get_absent_not_found main_store "999" "" H1 H2)).
Defined.

(** GET on [/users] reads the size of the map before taking the read lock. *)
Lemma List_trace_example :
  (response (mk_Request "GET" "/users" "") ∅ : list event) =
  [EvHeaderSet "content-type" "application/json";
   EvMapLen; EvRLock; EvMapRange; EvRUnlock;
   EvWriteHeader 200; EvWrite "[]"].
Proof. vm_compute. reflexivity. Qed.


(** Runs for the further properties. *)

Lemma get_present_ok_witness :
  let u := mk_user "MCI003" "Erling Braut Haaland" in
  digit_key "3" = true /\
  main_store !! "3" = Some u /\
  json_Marshal_user u = Some (plain_Marshal_user u) /\
  run (ServeHTTP (mk_Request "GET" ("/users/" ++ "3") "")) main_store =
  (Return tt,
   mk_world main_store
     [EvHeaderSet "content-type" "application/json";
      EvRLock; EvMapIndex "3"; EvRUnlock;
      EvWriteHeader 200; EvWrite (plain_Marshal_user u)]).
Proof.
  intros u.
  assert (H1 : digit_key "3" = true) by reflexivity.
  assert (H2 : main_store !! "3" = Some u) by (vm_compute; reflexivity).
  assert (H3 : json_Marshal_user u = Some (plain_Marshal_user u)) by reflexivity.
  split; [exact H1 |]. split; [exact H2 |]. split; [exact H3 |].
  exact (get_present_ok main_store "3" "" u (plain_Marshal_user u) H1 H2 H3).
Defined.

Lemma list_serves_all_values_witness :
  let r := mk_Request "GET" "/users/" "" in
  select r = RouteList /\
  length (range_values main_store) = size main_store /\
  serve r main_store = main_store.
Proof.
  intros r.
  assert (H1 : select r = RouteList) by reflexivity.
  split; [exact H1 |].
  destruct (list_serves_all_values main_store r H1) as (Hlen & _ & _ & Hs & _).
  split; [exact Hlen | exact Hs].
Defined.

Lemma non_post_requests_read_only_witness :
  let rs := [mk_Request "GET" "/users" "";
             mk_Request "DELETE" "/users/3" "";
             mk_Request "PUT" "/users" (user_body "3" "Somebody Else");
             mk_Request "GET" "/users/3" ""] in
  forallb (fun r => negb (String.eqb (Method r) MethodPost)) rs = true /\
  serve_all rs main_store = main_store.
Proof.
  intros rs.
  assert (H1 : forallb (fun r => negb (String.eqb (Method r) MethodPost)) rs
               = true) by reflexivity.
  split; [exact H1 |].
  exact (non_post_requests_read_only rs main_store H1).
Defined.

Lemma creates_commute_witness :
  let r1 := mk_Request "POST" "/users" (user_body "15" "Julian Alvarez") in
  let r2 := mk_Request "POST" "/users/" (user_body "16" "Rodri") in
  let u1 := mk_user "15" "Julian Alvarez" in
  let u2 := mk_user "16" "Rodri" in
  stored_by r1 = Some u1 /\
  stored_by r2 = Some u2 /\
  String.eqb (ID u1) (ID u2) = false /\
  serve r1 (serve r2 main_store) = serve r2 (serve r1 main_store).
Proof.
  intros r1 r2 u1 u2.
  assert (H1 : stored_by r1 = Some u1) by reflexivity.
  assert (H2 : stored_by r2 = Some u2) by reflexivity.
  assert (H3 : String.eqb (ID u1) (ID u2) = false) by reflexivity.
  split; [exact H1 |]. split; [exact H2 |]. split; [exact H3 |].
  exact (proj1 (creates_commute main_store r1 r2 u1 u2 H1 H2 H3)).
Defined.

Lemma create_stores_then_echoes_witness :
  let r := mk_Request "POST" "/users/" (user_body "15" "Julian Alvarez") in
  let u := mk_user "15" "Julian Alvarez" in
  select r = RouteCreate /\
  json_Decode (Body r) = Some u /\
  json_Marshal_user u = Some (plain_Marshal_user u) /\
  run (ServeHTTP r) main_store =
  (Return tt,
   mk_world (<["15":=u]> main_store)
     [EvHeaderSet "content-type" "application/json";
      EvLock; EvMapAssign "15"; EvUnlock;
      EvWriteHeader 200; EvWrite (plain_Marshal_user u)]).
Proof.
  intros r u.
  assert (H1 : select r = RouteCreate) by reflexivity.
  assert (H2 : json_Decode (Body r) = Some u) by reflexivity.
  assert (H3 : json_Marshal_user u = Some (plain_Marshal_user u)) by reflexivity.
  split; [exact H1 |]. split; [exact H2 |]. split; [exact H3 |].
  exact (create_stores_then_echoes main_store r u (plain_Marshal_user u)
           H1 H2 H3).
Defined.

Lemma locks_released_before_write_witness :
  let r := mk_Request "GET" "/users/abc" "" in
  MatchString getUserRe (URL_Path r) = false /\
  lock_usage (response r main_store) = Some Unheld /\
  lock_usage (trace (snd (run (Get r) main_store))) = Some Shared.
Proof.
  intros r.
  assert (H1 : MatchString getUserRe (URL_Path r) = false) by reflexivity.
  split; [exact H1 |].
  destruct (locks_released_before_write main_store r) as [Hd Hg].
  split; [exact Hd | exact (Hg H1)].
Defined.

Lemma created_record_listed_witness :
  let r := mk_Request "POST" "/users" (user_body "MCI015" "Julian Alvarez") in
  let u := mk_user "MCI015" "Julian Alvarez" in
  let rs := [mk_Request "GET" "/users" "";
             mk_Request "POST" "/users" (user_body "16" "Rodri");
             mk_Request "POST" "/users/9" (user_body "MCI015" "Nobody")] in
  stored_by r = Some u /\
  forallb (fun r' => negb (creates_key (ID u) r')) rs = true /\
  u ∈ range_values (serve_all rs (serve r main_store)) /\
  response (mk_Request "GET" "/users" "") (serve_all rs (serve r main_store)) =
    [EvHeaderSet "content-type" "application/json";
     EvMapLen; EvRLock; EvMapRange; EvRUnlock;
     EvWriteHeader 200;
     EvWrite ("[" ++ plain_Marshal_elems
                       (range_values (serve_all rs (serve r main_store)))
                  ++ "]")].
Proof.
  intros r u rs.
  assert (H1 : stored_by r = Some u) by reflexivity.
  assert (H2 : forallb (fun r' => negb (creates_key (ID u) r')) rs = true)
    by reflexivity.
  split; [exact H1 |]. split; [exact H2 |].
  exact (proj2 (created_record_listed main_store r u rs H1 H2)
           (mk_Request "GET" "/users" "") eq_refl).
Defined.
